(** * Dr. Radif: the Persian music prescription requester (drradif.py)

    A shallow embedding of [drradif.py].  The module is a thin mediator
    between a caller and an external reasoning service: it formats a
    two-message chat request from a fixed knowledge base and the user's
    text, submits it once, and turns the reply into a [MusicPrescription]
    or into an error string.

    What the module itself does (template formatting, the order of the
    steps, the [try]/[except], the guard and the loop of [__main__]) is
    defined here.  What the third-party libraries do behind their calls
    (whether the client class accepts its arguments, the network service,
    the JSON decoder, the wording of the format instructions and of
    validation errors) is collected in the record [Env] and every result
    is proved for an arbitrary [Env]. *)

From Stdlib Require Import String Ascii List Bool Arith Lia QArith.
Import ListNotations.
Open Scope string_scope.

(** ** Python exceptions and values *)

(** An instance of a subclass of Python's [Exception]: the class name and
    the text [str(e)] gives. *)
Record Exception := mkException {
  exc_class : string;
  exc_str : string
}.

(** [MusicPrescription] (a pydantic [BaseModel]): six required [str]
    fields, none with a default and none with a length constraint. *)
Record MusicPrescription := mkMusicPrescription {
  diagnosis : string;
  mode_name : string;
  archetype : string;
  neuroscience_mechanism : string;
  search_query : string;
  activity_suggestion : string
}.

(** The Python values a caller of the module can be handed. *)
Inductive PyValue :=
| PyNone
| PyStr (s : string)
| PyException (e : Exception)
| PyMusicPrescription (r : MusicPrescription).

(** [isinstance(v, MusicPrescription)] *)
Definition isinstance_MusicPrescription (v : PyValue) : bool :=
  match v with
  | PyMusicPrescription _ => true
  | _ => false
  end.


(** Truthiness of an [Optional[str]], as [not my_api_key] tests it. *)
Definition truthy (v : option string) : bool :=
  match v with
  | None => false
  | Some EmptyString => false
  | Some (String _ _) => true
  end.

(** ** Decoded JSON and the chat request *)

Inductive JSON :=
| JNull
| JBool (b : bool)
| JNumber (literal : string)
| JString (s : string)
| JArray (items : list JSON)
| JObject (members : list (string * JSON)).

Inductive Role := SystemRole | HumanRole.

Record Message := mkMessage {
  msg_role : Role;
  msg_content : string
}.

(** How a runnable is driven: [invoke] waits for the whole reply,
    [stream] would consume it chunk by chunk. *)
Inductive CallMode := Invoke | Stream.

(** One submission to the reasoning service, as the service sees it. *)
Record Invocation := mkInvocation {
  inv_temperature : Q;
  inv_model : string;
  inv_api_key : string;
  inv_mode : CallMode;
  inv_messages : list Message
}.

(** One declared field of a pydantic model. *)
Record FieldSpec := mkField {
  field_name : string;
  field_description : string
}.

(** ** The libraries behind the calls *)

Record Env := mkEnv {
  (** [ChatOpenAI(temperature=..., model=..., openai_api_key=...)]: the
      exception, if any, with which the client class refuses to be built
      from these arguments *)
  client_refusal : Q -> string -> string -> option Exception;
  (** the reasoning service: given the submissions made so far and the
      current one, it raises or answers with text *)
  llm_service : list Invocation -> Invocation -> Exception + string;
  (** the parser's JSON decoding of the reply text *)
  parse_json_markdown : string -> Exception + JSON;
  (** pydantic's treatment of a JSON number or boolean met where [str]
      is declared: coerced to text or refused, depending on the version *)
  coerce_scalar : JSON -> option string;
  (** the exception the parser raises for an object that fails validation *)
  validation_error : JSON -> Exception;
  (** the format instructions generated from a model's declared fields *)
  format_instructions_for : list FieldSpec -> string
}.

(** ** Python's [str.format] on named fields *)

Definition ValueError (m : string) : Exception := mkException "ValueError" m.
Definition KeyError (k : string) : Exception :=
  mkException "KeyError" ("'" ++ k ++ "'").

Definition lbrace : ascii := "{"%char.
Definition rbrace : ascii := "}"%char.

Fixpoint lookup {A : Type} (k : string) (kvs : list (string * A)) : option A :=
  match kvs with
  | [] => None
  | (k', v) :: rest => if String.eqb k k' then Some v else lookup k rest
  end.

Definition prepend (c : ascii) (r : Exception + string) : Exception + string :=
  match r with
  | inl e => inl e
  | inr s => inr (String c s)
  end.

Definition splice (v : string) (r : Exception + string) : Exception + string :=
  match r with
  | inl e => inl e
  | inr s => inr (v ++ s)
  end.

(** [format_go vars field t] formats the template text [t].  [field] is
    [None] in literal text and [Some n] inside a replacement field whose
    name read so far is [n].  A doubled brace stands for one brace, a
    field is replaced by the value bound to its name, and the text of a
    value is copied out without being scanned again. *)
Fixpoint format_go (vars : list (string * string)) (field : option string)
    (t : string) : Exception + string :=
  match field, t with
  | None, EmptyString => inr EmptyString
  | None, String c r =>
      if Ascii.eqb c lbrace then
        match r with
        | String c2 r2 =>
            if Ascii.eqb c2 lbrace then prepend lbrace (format_go vars None r2)
            else format_go vars (Some EmptyString) r
        | EmptyString => inl (ValueError "Single '{' encountered in format string")
        end
      else if Ascii.eqb c rbrace then
        match r with
        | String c2 r2 =>
            if Ascii.eqb c2 rbrace then prepend rbrace (format_go vars None r2)
            else inl (ValueError "Single '}' encountered in format string")
        | EmptyString => inl (ValueError "Single '}' encountered in format string")
        end
      else prepend c (format_go vars None r)
  | Some n, EmptyString => inl (ValueError "expected '}' before end of string")
  | Some n, String c r =>
      if Ascii.eqb c rbrace then
        match lookup n vars with
        | Some v => splice v (format_go vars None r)
        | None => inl (KeyError n)
        end
      else if Ascii.eqb c lbrace then
        inl (ValueError "unexpected '{' in field name")
      else format_go vars (Some (n ++ String c EmptyString)) r
  end.

Definition format_template (t : string) (vars : list (string * string))
  : Exception + string :=
  format_go vars None t.

(** Text without any brace. *)
Fixpoint brace_free (t : string) : bool :=
  match t with
  | EmptyString => true
  | String c r =>
      negb (Ascii.eqb c lbrace) && negb (Ascii.eqb c rbrace) && brace_free r
  end.

(** [parse_go field t] reads the template text [t] the way [format_go]
    does, without substituting: it raises on the same malformed texts
    and returns the names of the replacement fields, in order. *)
Fixpoint parse_go (field : option string) (t : string)
  : Exception + list string :=
  match field, t with
  | None, EmptyString => inr []
  | None, String c r =>
      if Ascii.eqb c lbrace then
        match r with
        | String c2 r2 =>
            if Ascii.eqb c2 lbrace then parse_go None r2
            else parse_go (Some EmptyString) r
        | EmptyString => inl (ValueError "Single '{' encountered in format string")
        end
      else if Ascii.eqb c rbrace then
        match r with
        | String c2 r2 =>
            if Ascii.eqb c2 rbrace then parse_go None r2
            else inl (ValueError "Single '}' encountered in format string")
        | EmptyString => inl (ValueError "Single '}' encountered in format string")
        end
      else parse_go None r
  | Some n, EmptyString => inl (ValueError "expected '}' before end of string")
  | Some n, String c r =>
      if Ascii.eqb c rbrace then
        match parse_go None r with
        | inl e => inl e
        | inr names => inr (n :: names)
        end
      else if Ascii.eqb c lbrace then
        inl (ValueError "unexpected '{' in field name")
      else parse_go (Some (n ++ String c EmptyString)) r
  end.

(** The input variables of a template; raises if the text is not a
    well-formed template. *)
Definition template_variables (t : string) : Exception + list string :=
  parse_go None t.

(** ** The knowledge base *)

(** The text bound to the module global [PHARMACOPEIA_CONTEXT] when the
    module is loaded. *)
Definition PHARMACOPEIA_CONTEXT : string := "
You are 'Dr. Radif', a highly sophisticated Music Therapist specializing in the neuroscience of Persian Traditional Music. 
Your goal is to analyze the user's context/mood and prescribe the exact Persian musical mode (Dastgah or Avaz) to regulate their nervous system.

Use this internal Pharmacopeia (Knowledge Base) to make your decision:

1. **CONTEXT: Grief, Depression, Broken Heart, Rain**
   - **RX:** Avaz-e Dashti (The Shepherd)
   - **Mechanism:** Mimics human crying frequencies; triggers Prolactin release for 'The Good Cry'.

2. **CONTEXT: Morning, Low Energy, Need Motivation, Sunrise**
   - **RX:** Dastgah-e Mahur (The Sunrise) or Chahargah (The Warrior)
   - **Mechanism:** Mahur triggers Dopamine (joy). Chahargah triggers Adrenaline (power/fight-or-flight).

3. **CONTEXT: Nostalgia, Missing Home, Sunset, Autumn, Romantic Longing**
   - **RX:** Avaz-e Bayat-e Isfahan (The Mystic) or Segah
   - **Mechanism:** Uses microtones that stimulate the Hippocampus (memory) and Default Mode Network. Creates 'Saudade'.

4. **CONTEXT: Anxiety, Panic, Chaos, Overwhelmed**
   - **RX:** Dastgah-e Homayoun (The King)
   - **Mechanism:** Majestic and gravity-heavy. Forces brainwaves from erratic Beta to focused Alpha. Grounding.

5. **CONTEXT: Deep Focus, Coding, Math, Logic Work**
   - **RX:** Dastgah-e Nava (The Mathematician) or Rast-Panjgah
   - **Mechanism:** Complex, repetitive, chant-like structures. Stabilizes High-Beta waves. Creates 'Flow State'.

6. **CONTEXT: Insomnia, Bedtime, Racing Thoughts**
   - **RX:** Avaz-e Abu Ata (The Philosopher)
   - **Mechanism:** Low-frequency bias, no sudden climaxes. Induces Delta waves.

7. **CONTEXT: Vacation, Nature, Reset, Decompression**
   - **RX:** Bayat-e Tork (The Traveler) or Afshari
   - **Mechanism:** Linked to Sufi storytelling and open horizons. Breaks the urban 'grid'.

**INSTRUCTIONS:**
- Analyze the user's input for emotional nuance (e.g., 'bittersweet' is Isfahan, 'crushed' is Dashti).
- Return the output strictly in the requested JSON format.
".

(** ** Program state and the monad of module code *)

(** What a run of the module can read or change: the binding of the
    module global [PHARMACOPEIA_CONTEXT], the submissions the reasoning
    service has received, and the lines printed. *)
Record World := mkWorld {
  g_PHARMACOPEIA_CONTEXT : string;
  service_log : list Invocation;
  stdout : list string
}.

(** The state right after the module is loaded. *)
Definition module_init : World :=
  mkWorld PHARMACOPEIA_CONTEXT [] [].

Inductive Outcome (A : Type) :=
| Returned (a : A)
| Raised (e : Exception).
Arguments Returned {A} a.
Arguments Raised {A} e.

Definition M (A : Type) : Type := World -> Outcome A * World.

Definition ret {A} (a : A) : M A := fun w => (Returned a, w).

Definition raise {A} (e : Exception) : M A := fun w => (Raised e, w).

Definition bind {A B} (m : M A) (k : A -> M B) : M B :=
  fun w =>
    match m w with
    | (Returned a, w') => k a w'
    | (Raised e, w') => (Raised e, w')
    end.

(** [try: m  except Exception as e: h e] *)
Definition try_except {A} (m : M A) (h : Exception -> M A) : M A :=
  fun w =>
    match m w with
    | (Returned a, w') => (Returned a, w')
    | (Raised e, w') => h e w'
    end.

(** A pure step that returns or raises. *)
Definition lift {A} (r : Exception + A) : M A :=
  match r with
  | inl e => raise e
  | inr a => ret a
  end.

Notation "x <- m ;; k" := (bind m (fun x => k))
  (at level 61, m at next level, right associativity).
Notation "m ;;; k" := (bind m (fun _ => k))
  (at level 61, right associativity).

(** Reading the module global. *)
Definition read_PHARMACOPEIA_CONTEXT : M string :=
  fun w => (Returned (g_PHARMACOPEIA_CONTEXT w), w).

(** [print(s)] *)
Definition print (s : string) : M unit :=
  fun w =>
    (Returned tt,
     mkWorld (g_PHARMACOPEIA_CONTEXT w) (service_log w) (stdout w ++ [s])).

(** ** The objects the function builds *)

Record ChatOpenAI := mkChatOpenAI {
  temperature : Q;
  model : string;
  openai_api_key : string
}.

Record MessagePromptTemplate := mkTemplate {
  tpl_role : Role;
  tpl_text : string
}.

(** [from_template] reads the text as a template when the object is
    built, and raises there if it is malformed. *)
Definition from_template (role : Role) (t : string)
  : Exception + MessagePromptTemplate :=
  match template_variables t with
  | inl e => inl e
  | inr _ => inr (mkTemplate role t)
  end.

Definition SystemMessagePromptTemplate_from_template (t : string) :=
  from_template SystemRole t.
Definition HumanMessagePromptTemplate_from_template (t : string) :=
  from_template HumanRole t.

Definition ChatPromptTemplate := list MessagePromptTemplate.

Definition ChatPromptTemplate_from_messages
    (ms : list MessagePromptTemplate) : ChatPromptTemplate := ms.

(** The declared fields of [MusicPrescription], in order. *)
Definition MusicPrescription_fields : list FieldSpec :=
  [ mkField "diagnosis"
      "A brief, empathetic analysis of the user's emotional state.";
    mkField "mode_name"
      "The name of the Dastgah or Avaz prescribed (e.g., 'Avaz-e Dashti').";
    mkField "archetype"
      "The archetype of this mode (e.g., 'The Shepherd', 'The Warrior', 'The Hacker').";
    mkField "neuroscience_mechanism"
      "The scientific explanation of why this works (e.g., Dopamine, Prolactin, Beta waves).";
    mkField "search_query"
      "A specific search string for YouTube/Spotify (e.g., 'Kayhan Kalhor Dashti Improvisation').";
    mkField "activity_suggestion"
      "What the user should do while listening." ].

(** The human message template: three adjacent literals, the escapes
    written out as line feeds. *)
Definition human_template : string :=
  "PATIENT SYMPTOMS: {input}

Analyze the symptoms and provide the prescription.
{format_instructions}".

(** The text of the human message around its two fields. *)
Definition human_prefix : string := "PATIENT SYMPTOMS: ".
Definition human_middle : string := "

Analyze the symptoms and provide the prescription.
".

Definition error_prefix : string := "Error: ".

(** The five marks that open the lines [__main__] prints. *)
Definition patient_mark : string := "üó£Ô∏è".
Definition rx_mark : string := "üíä".
Definition why_mark : string := "üß†".
Definition search_mark : string := "üîç".
Definition do_mark : string := "üí°".

Definition newline : string := "
".

Fixpoint repeat_string (s : string) (n : nat) : string :=
  match n with
  | O => EmptyString
  | S n' => s ++ repeat_string s n'
  end.

Definition user_scenarios : list string :=
  [ "I have to write 500 lines of Python code and I'm distracted.";
    "I just went through a breakup and it's raining outside.";
    "I'm feeling super anxious about a meeting and my heart is racing.";
    "I'm on a road trip in the desert and feeling philosophical." ].

(** ** The module's code *)

Section Program.

Variable E : Env.

(** *** [PydanticOutputParser(pydantic_object=MusicPrescription)] *)

(** A value met where a field is declared [str]. *)
Definition validate_str (v : JSON) : option string :=
  match v with
  | JString s => Some s
  | JBool _ | JNumber _ => coerce_scalar E v
  | JNull | JArray _ | JObject _ => None
  end.

(** A required [str] field of the decoded object. *)
Definition required_str (members : list (string * JSON)) (name : string)
  : option string :=
  match lookup name members with
  | Some v => validate_str v
  | None => None
  end.

(** Validation of a decoded reply against [MusicPrescription]: an object
    holding all six fields as text; members it does not declare are
    ignored. *)
Definition MusicPrescription_validate (obj : JSON) : option MusicPrescription :=
  match obj with
  | JObject members =>
      match required_str members "diagnosis",
            required_str members "mode_name",
            required_str members "archetype",
            required_str members "neuroscience_mechanism",
            required_str members "search_query",
            required_str members "activity_suggestion" with
      | Some d, Some m, Some a, Some n, Some s, Some act =>
          Some (mkMusicPrescription d m a n s act)
      | _, _, _, _, _, _ => None
      end
  | _ => None
  end.

Record PydanticOutputParser := mkParser {
  pydantic_object : list FieldSpec
}.

Definition get_format_instructions (p : PydanticOutputParser) : string :=
  format_instructions_for E (pydantic_object p).

(** [parser.parse(text)]: decode, then validate. *)
Definition parser_parse (p : PydanticOutputParser) (text : string)
  : Exception + MusicPrescription :=
  match parse_json_markdown E text with
  | inl e => inl e
  | inr obj =>
      match MusicPrescription_validate obj with
      | Some r => inr r
      | None => inl (validation_error E obj)
      end
  end.

(** *** The prompt *)

Fixpoint format_messages (p : ChatPromptTemplate) (vars : list (string * string))
  : Exception + list Message :=
  match p with
  | [] => inr []
  | t :: rest =>
      match format_template (tpl_text t) vars with
      | inl e => inl e
      | inr content =>
          match format_messages rest vars with
          | inl e => inl e
          | inr ms => inr (mkMessage (tpl_role t) content :: ms)
          end
      end
  end.

(** *** The model call *)

(** [llm.invoke(messages)]: one submission, recorded whether the service
    answers or raises. *)
Definition llm_invoke (llm : ChatOpenAI) (messages : list Message) : M string :=
  fun w =>
    let inv := mkInvocation (temperature llm) (model llm) (openai_api_key llm)
                 Invoke messages in
    let w' := mkWorld (g_PHARMACOPEIA_CONTEXT w) (service_log w ++ [inv])
                (stdout w) in
    match llm_service E (service_log w) inv with
    | inl e => (Raised e, w')
    | inr text => (Returned text, w')
    end.

(** *** [chain = prompt | llm | parser] *)

Record Chain := mkChain {
  chain_prompt : ChatPromptTemplate;
  chain_llm : ChatOpenAI;
  chain_parser : PydanticOutputParser
}.

Definition chain_invoke (c : Chain) (vars : list (string * string))
  : M MusicPrescription :=
  messages <- lift (format_messages (chain_prompt c) vars) ;;
  text <- llm_invoke (chain_llm c) messages ;;
  lift (parser_parse (chain_parser c) text).

(** *** [get_persian_music_prescription] *)

(** [ChatOpenAI(temperature=t, model=m, openai_api_key=k)]: the client
    object holding these settings, unless the class refuses them. *)
Definition new_ChatOpenAI (t : Q) (m k : string) : Exception + ChatOpenAI :=
  match client_refusal E t m k with
  | Some e => inl e
  | None => inr (mkChatOpenAI t m k)
  end.

(** The client, the parser and the prompt are built first, outside the
    [try]: an exception raised there is not caught.  Only the run of the
    chain is inside the [try]. *)
Definition get_persian_music_prescription (user_input openai_api_key : string)
  : M PyValue :=
  llm <- lift (new_ChatOpenAI (7 # 10) "gpt-4-turbo" openai_api_key) ;;
  let parser := mkParser MusicPrescription_fields in
  context <- read_PHARMACOPEIA_CONTEXT ;;
  system_template <- lift (SystemMessagePromptTemplate_from_template context) ;;
  human_template' <- lift (HumanMessagePromptTemplate_from_template human_template) ;;
  let prompt := ChatPromptTemplate_from_messages
      [ system_template; human_template' ] in
  let chain := mkChain prompt llm parser in
  try_except
    (result <- chain_invoke chain
                 [ ("input", user_input);
                   ("format_instructions", get_format_instructions parser) ] ;;
     ret (PyMusicPrescription result))
    (fun e => ret (PyStr (error_prefix ++ exc_str e))).

(** *** [__main__] *)

(** The body of the [for symptom in user_scenarios] loop. *)
Definition scenario (my_api_key symptom : string) : M unit :=
  print (newline ++ patient_mark ++ " PATIENT: '" ++ symptom ++ "'") ;;;
  rx <- get_persian_music_prescription symptom my_api_key ;;
  match rx with
  | PyMusicPrescription r =>
      print (rx_mark ++ " RX: " ++ mode_name r ++ " (" ++ archetype r ++ ")") ;;;
      print (why_mark ++ " WHY: " ++ neuroscience_mechanism r) ;;;
      print (search_mark ++ " SEARCH: '" ++ search_query r ++ "'") ;;;
      print (do_mark ++ " DO THIS: " ++ activity_suggestion r) ;;;
      print (repeat_string "-" 50)
  | _ => ret tt
  end.

Fixpoint for_each (body : string -> M unit) (items : list string) : M unit :=
  match items with
  | [] => ret tt
  | x :: rest => body x ;;; for_each body rest
  end.

(** The script, given what [os.getenv] finds under OPENAI_API_KEY. *)
Definition main (getenv_OPENAI_API_KEY : option string) : M unit :=
  let my_api_key := getenv_OPENAI_API_KEY in
  if negb (truthy my_api_key) then
    print "Please set your OPENAI_API_KEY environment variable."
  else
    print "--- DR. RADIF IS LISTENING ---" ;;;
    for_each
      (scenario (match my_api_key with Some k => k | None => EmptyString end))
      user_scenarios.

(** *** Derived notions used to state the properties *)

(** The two messages the function is expected to submit. *)
Definition expected_messages (user_input : string) : list Message :=
  [ mkMessage SystemRole PHARMACOPEIA_CONTEXT;
    mkMessage HumanRole
      (human_prefix ++ user_input ++ human_middle
         ++ format_instructions_for E MusicPrescription_fields) ].

(** A sequence of calls, one after the other, whatever each returns or
    raises. *)
Fixpoint run_calls (calls : list (string * string)) (w : World) : World :=
  match calls with
  | [] => w
  | (user_input, key) :: rest =>
      run_calls rest (snd (get_persian_music_prescription user_input key w))
  end.

(** A field value that is neither text nor a scalar pydantic turns into
    text. *)
Definition wrong_shape (v : JSON) : bool :=
  match v with
  | JString _ => false
  | JBool _ | JNumber _ =>
      match coerce_scalar E v with Some _ => false | None => true end
  | JNull | JArray _ | JObject _ => true
  end.

End Program.

Definition required_names : list string :=
  map field_name MusicPrescription_fields.

Definition nonempty (s : string) : bool :=
  match s with
  | EmptyString => false
  | String _ _ => true
  end.

(** All six fields of a record are non-empty text. *)
Definition all_fields_nonempty (r : MusicPrescription) : bool :=
  nonempty (diagnosis r) && nonempty (mode_name r) && nonempty (archetype r)
  && nonempty (neuroscience_mechanism r) && nonempty (search_query r)
  && nonempty (activity_suggestion r).

(** The field of a record under its declared name. *)
Definition get_field (r : MusicPrescription) (name : string) : option string :=
  lookup name
    [ ("diagnosis", diagnosis r); ("mode_name", mode_name r);
      ("archetype", archetype r);
      ("neuroscience_mechanism", neuroscience_mechanism r);
      ("search_query", search_query r);
      ("activity_suggestion", activity_suggestion r) ].

Section Characterisation.

Variable E : Env.

(** The client class accepts the settings the function asks for with
    this key. *)
Definition client_accepts (key : string) : bool :=
  match client_refusal E (7 # 10) "gpt-4-turbo" key with
  | None => true
  | Some _ => false
  end.

(** The submission a call with these arguments is expected to make. *)
Definition submission (user_input key : string) : Invocation :=
  mkInvocation (7 # 10) "gpt-4-turbo" key Invoke (expected_messages E user_input).

(** What the [except] clause returns for [e]. *)
Definition error_value (e : Exception) : PyValue :=
  PyStr (error_prefix ++ exc_str e).

(** The value handed to the caller for a given behaviour of the service. *)
Definition value_of_reply (reply : Exception + string) : PyValue :=
  match reply with
  | inl e => error_value e
  | inr text =>
      match parser_parse E (mkParser MusicPrescription_fields) text with
      | inl e => error_value e
      | inr r => PyMusicPrescription r
      end
  end.

End Characterisation.

(** ** Stand-ins for the libraries, used to run the model on examples *)

Definition dq : string := String "034"%char EmptyString.

(** JSON text of a decoded value (sample values need no escaping). *)
Fixpoint json_text (j : JSON) : string :=
  match j with
  | JNull => "null"
  | JBool true => "true"
  | JBool false => "false"
  | JNumber l => l
  | JString s => dq ++ s ++ dq
  | JArray items =>
      "[" ++ (fix go (l : list JSON) : string :=
                match l with
                | [] => EmptyString
                | x :: r =>
                    match r with
                    | [] => json_text x
                    | _ :: _ => json_text x ++ ", " ++ go r
                    end
                end) items ++ "]"
  | JObject members =>
      "{" ++ (fix go (l : list (string * JSON)) : string :=
                match l with
                | [] => EmptyString
                | (k, v) :: r =>
                    match r with
                    | [] => dq ++ k ++ dq ++ ": " ++ json_text v
                    | _ :: _ => dq ++ k ++ dq ++ ": " ++ json_text v ++ ", " ++ go r
                    end
                end) members ++ "}"
  end.

(** The object a record is read from. *)
Definition members_of (r : MusicPrescription) : list (string * JSON) :=
  [ ("diagnosis", JString (diagnosis r));
    ("mode_name", JString (mode_name r));
    ("archetype", JString (archetype r));
    ("neuroscience_mechanism", JString (neuroscience_mechanism r));
    ("search_query", JString (search_query r));
    ("activity_suggestion", JString (activity_suggestion r)) ].

Definition focus_rx : MusicPrescription :=
  mkMusicPrescription
    "You face a long stretch of logical work and your attention keeps slipping."
    "Dastgah-e Nava"
    "The Mathematician"
    "Repetitive, chant-like structures stabilise High-Beta waves and invite a flow state."
    "Dastgah Nava santur instrumental"
    "Put on headphones, close every other tab and write the first function.".

(** A reply in which every field is the empty text. *)
Definition blank_rx : MusicPrescription :=
  mkMusicPrescription EmptyString EmptyString EmptyString EmptyString
    EmptyString EmptyString.

(** A reply without [search_query]. *)
Definition reply_missing_field : JSON :=
  JObject
    [ ("diagnosis", JString "Restless before sleep.");
      ("mode_name", JString "Avaz-e Abu Ata");
      ("archetype", JString "The Philosopher");
      ("neuroscience_mechanism", JString "Induces Delta waves.");
      ("activity_suggestion", JString "Dim the lights.") ].

(** A reply whose [mode_name] is an object. *)
Definition reply_nested_field : JSON :=
  JObject
    [ ("diagnosis", JString "Restless before sleep.");
      ("mode_name", JObject [("primary", JString "Avaz-e Abu Ata")]);
      ("archetype", JString "The Philosopher");
      ("neuroscience_mechanism", JString "Induces Delta waves.");
      ("search_query", JString "Abu Ata setar");
      ("activity_suggestion", JString "Dim the lights.") ].

Definition prose_reply : string :=
  "I would suggest listening to Avaz-e Dashti while it rains.".

Definition sample_objects : list JSON :=
  [ JObject (members_of focus_rx); JObject (members_of blank_rx);
    reply_missing_field; reply_nested_field ].

Definition OutputParserException (m : string) : Exception :=
  mkException "OutputParserException" m.

(** Decodes the texts of [sample_objects]; anything else is not JSON. *)
Definition sample_decode (text : string) : Exception + JSON :=
  match find (fun j => String.eqb text (json_text j)) sample_objects with
  | Some j => inr j
  | None => inl (OutputParserException ("Invalid json output: " ++ text))
  end.

Definition sample_validation_error (obj : JSON) : Exception :=
  OutputParserException
    ("Failed to parse MusicPrescription from completion " ++ json_text obj).

Definition sample_format_instructions (fields : list FieldSpec) : string :=
  "The output should be formatted as a JSON instance with the keys: "
    ++ String.concat ", " (map field_name fields).

(** Libraries whose client class accepts any key, and in which numbers
    and booleans are refused where text is declared, around a service
    with the given behaviour. *)
Definition sample_env
    (service : list Invocation -> Invocation -> Exception + string) : Env :=
  mkEnv (fun _ _ _ => None) service sample_decode (fun _ => None)
    sample_validation_error sample_format_instructions.

Definition missing_key_message : string :=
  "Did not find openai_api_key, please add an environment variable `OPENAI_API_KEY` which contains it, or pass `openai_api_key` as a named parameter.".

(** A client class that refuses to be built without a key. *)
Definition refuse_missing_key (_ : Q) (_ key : string) : option Exception :=
  match key with
  | EmptyString => Some (ValueError missing_key_message)
  | String _ _ => None
  end.

(** The same libraries around such a client class. *)
Definition strict_env
    (service : list Invocation -> Invocation -> Exception + string) : Env :=
  mkEnv refuse_missing_key service sample_decode (fun _ => None)
    sample_validation_error sample_format_instructions.

(** A service that always answers with the same text. *)
Definition answering (text : string)
  : list Invocation -> Invocation -> Exception + string :=
  fun _ _ => inr text.

(** A service that cannot be reached. *)
Definition unreachable : list Invocation -> Invocation -> Exception + string :=
  fun _ _ => inl (mkException "APIConnectionError" "Connection error.").

(** Sample arguments and sample libraries. *)
Definition coding_symptom : string :=
  "I have to write 500 lines of Python code and I'm distracted.".
Definition sample_key : string := "sk-test".

Definition focus_env : Env :=
  sample_env (answering (json_text (JObject (members_of focus_rx)))).
Definition blank_env : Env :=
  sample_env (answering (json_text (JObject (members_of blank_rx)))).
Definition missing_env : Env :=
  sample_env (answering (json_text reply_missing_field)).
Definition nested_env : Env :=
  sample_env (answering (json_text reply_nested_field)).
Definition prose_env : Env := sample_env (answering prose_reply).
Definition unreachable_env : Env := sample_env unreachable.
Definition strict_focus_env : Env :=
  strict_env (answering (json_text (JObject (members_of focus_rx)))).

(** Libraries whose client class cannot be built at all. *)
Definition no_client : Exception :=
  mkException "ImportError"
    "Could not import openai python package. Please install it with `pip install openai`.".
Definition broken_env : Env :=
  mkEnv (fun _ _ _ => Some no_client) unreachable sample_decode
    (fun _ => None) sample_validation_error sample_format_instructions.

(** ** Frame conditions *)

(** A computation that leaves the binding of the module global as it
    found it. *)
Definition keeps_global {A : Type} (m : M A) : Prop :=
  forall w, g_PHARMACOPEIA_CONTEXT (snd (m w)) = g_PHARMACOPEIA_CONTEXT w.

(** A submission whose first message is the knowledge base, as a system
    message. *)
Definition framed_by_knowledge_base (inv : Invocation) : Prop :=
  hd_error (inv_messages inv) = Some (mkMessage SystemRole PHARMACOPEIA_CONTEXT).

(** The configuration part of a submission. *)
Definition configured_as_written (inv : Invocation) : Prop :=
  inv_temperature inv = 7 # 10
  /\ inv_model inv = "gpt-4-turbo"
  /\ inv_mode inv = Invoke.

(** ** Replies the parser is expected to refuse *)

(** [is_object j]: the decoded value is a JSON object. *)
Definition is_object (j : JSON) : bool :=
  match j with
  | JObject _ => true
  | _ => false
  end.

(** [malformed_reply E text e]: the reply [text] is not JSON, or decodes
    to something that is not an object, or to an object that lacks a
    required field or holds one of the wrong shape; [e] is the exception
    the parser raises for it. *)
Inductive malformed_reply (E : Env) (text : string) : Exception -> Prop :=
| not_json (e : Exception) :
    parse_json_markdown E text = inl e ->
    malformed_reply E text e
| not_an_object (j : JSON) :
    parse_json_markdown E text = inr j ->
    is_object j = false ->
    malformed_reply E text (validation_error E j)
| missing_field (members : list (string * JSON)) (name : string) :
    parse_json_markdown E text = inr (JObject members) ->
    In name required_names ->
    lookup name members = None ->
    malformed_reply E text (validation_error E (JObject members))
| misshapen_field (members : list (string * JSON)) (name : string) (v : JSON) :
    parse_json_markdown E text = inr (JObject members) ->
    In name required_names ->
    lookup name members = Some v ->
    wrong_shape E v = true ->
    malformed_reply E text (validation_error E (JObject members)).

(** * Properties *)

(** ** Template formatting *)

Lemma append_empty_r (s : string) : s ++ EmptyString = s.
Proof.
  induction s as [|c s IH]; simpl; [reflexivity | now rewrite IH].
Qed.

(** Text without braces is its own formatting, whatever the variables. *)
Lemma format_go_brace_free vars (t : string) :
  brace_free t = true -> format_go vars None t = inr t.
Proof.
  induction t as [|c t IH]; intros H.
  - reflexivity.
  - cbn in H. apply andb_true_iff in H as [H Ht].
    apply andb_true_iff in H as [Hl Hr].
    apply negb_true_iff in Hl, Hr.
    cbn. rewrite Hl, Hr, (IH Ht). reflexivity.
Qed.

(** Text without braces is a well-formed template without variables. *)
Lemma parse_go_brace_free (t : string) :
  brace_free t = true -> parse_go None t = inr [].
Proof.
  induction t as [|c t IH]; intros H.
  - reflexivity.
  - cbn in H. apply andb_true_iff in H as [H Ht].
    apply andb_true_iff in H as [Hl Hr].
    apply negb_true_iff in Hl, Hr.
    cbn. rewrite Hl, Hr. exact (IH Ht).
Qed.

Lemma PHARMACOPEIA_CONTEXT_brace_free : brace_free PHARMACOPEIA_CONTEXT = true.
Proof. vm_compute. reflexivity. Qed.

(** The human template with both fields bound: each value is copied in
    whole, whatever characters it holds. *)
Lemma format_human_template (user_input instructions : string) :
  format_template human_template
    [("input", user_input); ("format_instructions", instructions)]
  = inr (human_prefix ++ user_input ++ human_middle ++ instructions).
Proof.
  unfold format_template, human_template, human_prefix, human_middle.
  cbn. rewrite append_empty_r. reflexivity.
Qed.

(** Both templates of the prompt are well formed, so building the prompt
    from the loaded knowledge base does not raise. *)
Lemma system_from_template :
  SystemMessagePromptTemplate_from_template PHARMACOPEIA_CONTEXT
  = inr (mkTemplate SystemRole PHARMACOPEIA_CONTEXT).
Proof.
  unfold SystemMessagePromptTemplate_from_template, from_template,
    template_variables.
  now rewrite (parse_go_brace_free _ PHARMACOPEIA_CONTEXT_brace_free).
Qed.

Lemma human_from_template :
  HumanMessagePromptTemplate_from_template human_template
  = inr (mkTemplate HumanRole human_template).
Proof. reflexivity. Qed.

Lemma human_template_variables :
  template_variables human_template = inr ["input"; "format_instructions"].
Proof. reflexivity. Qed.

(** ** One call, step by step *)

Section Call.

Variable E : Env.

(** With the knowledge base as loaded, the prompt formats to the two
    expected messages. *)
Lemma format_prompt (user_input : string) :
  format_messages
    (ChatPromptTemplate_from_messages
       [ mkTemplate SystemRole PHARMACOPEIA_CONTEXT;
         mkTemplate HumanRole human_template ])
    [ ("input", user_input);
      ("format_instructions",
       get_format_instructions E (mkParser MusicPrescription_fields)) ]
  = inr (expected_messages E user_input).
Proof.
  unfold ChatPromptTemplate_from_messages, format_messages, tpl_text, tpl_role.
  unfold format_template at 1.
  rewrite (format_go_brace_free _ _ PHARMACOPEIA_CONTEXT_brace_free).
  rewrite format_human_template.
  reflexivity.
Qed.

Lemma client_accepts_true (key : string) :
  client_accepts E key = true ->
  client_refusal E (7 # 10) "gpt-4-turbo" key = None.
Proof.
  unfold client_accepts.
  destruct (client_refusal E (7 # 10) "gpt-4-turbo" key); [discriminate | reflexivity].
Qed.

Lemma client_accepts_false (key : string) :
  client_accepts E key = false ->
  exists e, client_refusal E (7 # 10) "gpt-4-turbo" key = Some e.
Proof.
  unfold client_accepts.
  destruct (client_refusal E (7 # 10) "gpt-4-turbo" key) as [e |];
    [now exists e | discriminate].
Qed.

(** When the client class refuses the key, its exception reaches the
    caller: the [try] has not been entered yet.  Nothing is submitted. *)
Lemma call_refused (user_input key : string) (e : Exception) (w : World) :
  client_refusal E (7 # 10) "gpt-4-turbo" key = Some e ->
  get_persian_music_prescription E user_input key w = (Raised e, w).
Proof.
  intros Href. unfold get_persian_music_prescription, new_ChatOpenAI.
  rewrite Href. reflexivity.
Qed.

(** When the global does not hold a well-formed template, building the
    prompt raises, again before the [try]. *)
Lemma call_malformed_global (user_input key : string) (e : Exception) (w : World) :
  client_refusal E (7 # 10) "gpt-4-turbo" key = None ->
  template_variables (g_PHARMACOPEIA_CONTEXT w) = inl e ->
  get_persian_music_prescription E user_input key w = (Raised e, w).
Proof.
  intros Hacc Hparse.
  unfold get_persian_music_prescription, new_ChatOpenAI. rewrite Hacc.
  unfold bind at 1. unfold lift at 1, ret at 1.
  unfold bind at 1, read_PHARMACOPEIA_CONTEXT.
  unfold bind at 1.
  unfold SystemMessagePromptTemplate_from_template, from_template.
  rewrite Hparse. reflexivity.
Qed.

(** Once the client and the prompt are built, what is left of a call is
    the guarded run of the chain. *)
Lemma call_built (user_input key : string) (names : list string) (w : World) :
  client_refusal E (7 # 10) "gpt-4-turbo" key = None ->
  template_variables (g_PHARMACOPEIA_CONTEXT w) = inr names ->
  get_persian_music_prescription E user_input key w
  = try_except
      (result <- chain_invoke E
                   (mkChain
                      (ChatPromptTemplate_from_messages
                         [ mkTemplate SystemRole (g_PHARMACOPEIA_CONTEXT w);
                           mkTemplate HumanRole human_template ])
                      (mkChatOpenAI (7 # 10) "gpt-4-turbo" key)
                      (mkParser MusicPrescription_fields))
                   [ ("input", user_input);
                     ("format_instructions",
                      get_format_instructions E (mkParser MusicPrescription_fields)) ] ;;
       ret (PyMusicPrescription result))
      (fun e => ret (PyStr (error_prefix ++ exc_str e))) w.
Proof.
  intros Hacc Hparse.
  unfold get_persian_music_prescription, new_ChatOpenAI. rewrite Hacc.
  unfold bind at 1. unfold lift at 1, ret at 1.
  unfold bind at 1, read_PHARMACOPEIA_CONTEXT.
  unfold bind at 1.
  unfold SystemMessagePromptTemplate_from_template, from_template.
  rewrite Hparse. unfold lift at 1, ret at 1.
  unfold bind at 1. rewrite human_from_template. reflexivity.
Qed.

(** A call made with an accepted key while the global holds the loaded
    text returns [value_of_reply] of what the service did with
    [submission], and appends that one submission to the log. *)
Lemma call_run (user_input key : string) log out :
  client_accepts E key = true ->
  get_persian_music_prescription E user_input key
    (mkWorld PHARMACOPEIA_CONTEXT log out)
  = (Returned (value_of_reply E (llm_service E log (submission E user_input key))),
     mkWorld PHARMACOPEIA_CONTEXT (log ++ [submission E user_input key]) out).
Proof.
  intros Hacc. apply client_accepts_true in Hacc.
  rewrite (call_built user_input key [] _ Hacc)
    by (apply parse_go_brace_free, PHARMACOPEIA_CONTEXT_brace_free).
  cbn [g_PHARMACOPEIA_CONTEXT].
  unfold bind, try_except, chain_invoke, bind.
  cbn [chain_prompt chain_llm chain_parser].
  rewrite format_prompt.
  unfold lift at 1, ret at 1, llm_invoke.
  cbn [g_PHARMACOPEIA_CONTEXT service_log stdout temperature model openai_api_key].
  fold (submission E user_input key).
  destruct (llm_service E log (submission E user_input key)) as [e | text];
    cbn [value_of_reply].
  - reflexivity.
  - destruct (parser_parse E (mkParser MusicPrescription_fields) text) as [e | r];
      reflexivity.
Qed.

(** Whatever the state, a call either raises while building its objects
    (the client class refused the key, or the global does not hold a
    well-formed template) and changes nothing, or returns a record or an
    error text, having added at most one submission to the log and
    changed nothing else. *)
Lemma call_cases (user_input key : string) (w : World) :
  (exists e,
     get_persian_music_prescription E user_input key w = (Raised e, w)
     /\ (client_refusal E (7 # 10) "gpt-4-turbo" key = Some e
         \/ template_variables (g_PHARMACOPEIA_CONTEXT w) = inl e))
  \/ (exists v extra,
        get_persian_music_prescription E user_input key w
        = (Returned v,
           mkWorld (g_PHARMACOPEIA_CONTEXT w) (service_log w ++ extra) (stdout w))
        /\ (length extra <= 1)%nat
        /\ (isinstance_MusicPrescription v = true
            \/ exists e, v = error_value e)).
Proof.
  destruct (client_refusal E (7 # 10) "gpt-4-turbo" key) as [e |] eqn:Href.
  { left. exists e. split; [now apply call_refused | now left]. }
  destruct (template_variables (g_PHARMACOPEIA_CONTEXT w)) as [e | names] eqn:Hparse.
  { left. exists e. split; [now apply call_malformed_global | now right]. }
  right. rewrite (call_built user_input key names w Href Hparse).
  destruct w as [g log out].
  cbn [g_PHARMACOPEIA_CONTEXT service_log stdout].
  unfold bind, try_except, chain_invoke, bind.
  cbn [chain_prompt chain_llm chain_parser].
  match goal with
  | |- context [lift (format_messages ?p ?v)] =>
      destruct (format_messages p v) as [e | ms]
  end.
  - exists (error_value e), []. rewrite app_nil_r.
    repeat split; [cbn; lia | right; now exists e].
  - unfold lift at 1, ret at 1, llm_invoke.
    cbn [g_PHARMACOPEIA_CONTEXT service_log stdout temperature model openai_api_key].
    match goal with
    | |- context [llm_service E log ?i] =>
        destruct (llm_service E log i) as [e | text]; [| destruct
          (parser_parse E (mkParser MusicPrescription_fields) text) as [e | r]];
        [ exists (error_value e), [i]
        | exists (error_value e), [i]
        | exists (PyMusicPrescription r), [i] ]
    end; cbn; repeat split; try lia;
      solve [ right; eexists; reflexivity | now left ].
Qed.


End Call.
(** ** Validation *)

Section Validation.

Variable E : Env.

Lemma validate_str_wrong_shape (v : JSON) :
  wrong_shape E v = true -> validate_str E v = None.
Proof.
  destruct v; cbn; try reflexivity; try discriminate;
    destruct (coerce_scalar E _); congruence.
Qed.

(** One required field that does not validate fails the whole object. *)
Lemma validate_requires members (name : string) :
  In name required_names ->
  required_str E members name = None ->
  MusicPrescription_validate E (JObject members) = None.
Proof.
  intros Hin Hnone. cbn in Hin.
  unfold MusicPrescription_validate.
  repeat (destruct Hin as [<- | Hin]; [rewrite Hnone |]); try contradiction;
    repeat match goal with
           | |- context [match required_str E members ?n with _ => _ end] =>
               destruct (required_str E members n)
           end; reflexivity.
Qed.

(** A record that validates holds, under each declared name, the text
    validated for that name. *)
Lemma validate_fields members (r : MusicPrescription) (name : string) :
  MusicPrescription_validate E (JObject members) = Some r ->
  In name required_names ->
  exists s, required_str E members name = Some s /\ get_field r name = Some s.
Proof.
  unfold MusicPrescription_validate. intros Hv Hin.
  destruct (required_str E members "diagnosis") as [d|] eqn:Hd; [|discriminate].
  destruct (required_str E members "mode_name") as [m|] eqn:Hm; [|discriminate].
  destruct (required_str E members "archetype") as [a|] eqn:Ha; [|discriminate].
  destruct (required_str E members "neuroscience_mechanism") as [n|] eqn:Hn;
    [|discriminate].
  destruct (required_str E members "search_query") as [s|] eqn:Hs; [|discriminate].
  destruct (required_str E members "activity_suggestion") as [c|] eqn:Hc;
    [|discriminate].
  injection Hv as <-. cbn in Hin.
  repeat (destruct Hin as [<- | Hin]; [eexists; split; [eassumption | reflexivity] |]).
  contradiction.
Qed.

(** Only an object validates. *)
Lemma validate_object (obj : JSON) (r : MusicPrescription) :
  MusicPrescription_validate E obj = Some r -> exists members, obj = JObject members.
Proof.
  destruct obj; cbn; try discriminate. intros _. now eexists.
Qed.

End Validation.

(** ** Frame lemmas *)

Section Frame.

Variable E : Env.

Lemma keeps_global_ret {A} (a : A) : keeps_global (ret a).
Proof. intros w. reflexivity. Qed.

Lemma keeps_global_print (s : string) : keeps_global (print s).
Proof. intros w. reflexivity. Qed.

Lemma keeps_global_bind {A B} (m : M A) (k : A -> M B) :
  keeps_global m -> (forall a, keeps_global (k a)) -> keeps_global (bind m k).
Proof.
  intros Hm Hk w. unfold bind. specialize (Hm w).
  destruct (m w) as [[a | e] w']; cbn in *.
  - now rewrite Hk.
  - exact Hm.
Qed.

Lemma keeps_global_call (user_input key : string) :
  keeps_global (get_persian_music_prescription E user_input key).
Proof.
  intros w.
  destruct (call_cases E user_input key w)
    as [(e & -> & _) | (v & extra & -> & _)]; reflexivity.
Qed.

Lemma keeps_global_scenario (key symptom : string) :
  keeps_global (scenario E key symptom).
Proof.
  unfold scenario.
  apply keeps_global_bind; [apply keeps_global_print | intros _].
  apply keeps_global_bind; [apply keeps_global_call | intros rx].
  destruct rx; try apply keeps_global_ret.
  repeat (apply keeps_global_bind; [apply keeps_global_print | intros _]).
  apply keeps_global_print.
Qed.

Lemma keeps_global_for_each (body : string -> M unit) (items : list string) :
  (forall x, keeps_global (body x)) -> keeps_global (for_each body items).
Proof.
  intros Hbody. induction items as [| x rest IH]; cbn.
  - apply keeps_global_ret.
  - apply keeps_global_bind; [apply Hbody | intros _; exact IH].
Qed.

Lemma keeps_global_main (key : option string) : keeps_global (main E key).
Proof.
  unfold main. destruct (negb (truthy key)).
  - apply keeps_global_print.
  - apply keeps_global_bind; [apply keeps_global_print | intros _].
    apply keeps_global_for_each. intros x. apply keeps_global_scenario.
Qed.

(** A sequence of calls made from a state in which the global holds the
    loaded text: the global still holds it, nothing is printed, and the
    log has grown by one submission for each call whose key the client
    class accepted, in order. *)
Lemma run_calls_log (calls : list (string * string)) log out :
  run_calls E calls (mkWorld PHARMACOPEIA_CONTEXT log out)
  = mkWorld PHARMACOPEIA_CONTEXT
      (log ++ map (fun c => submission E (fst c) (snd c))
                (filter (fun c => client_accepts E (snd c)) calls)) out.
Proof.
  revert log.
  induction calls as [| [u k] rest IH]; intros log; cbn [run_calls map filter snd].
  - now rewrite app_nil_r.
  - destruct (client_accepts E k) eqn:Hacc.
    + rewrite (call_run E u k log out Hacc). cbn [snd fst map].
      rewrite IH, <- app_assoc. reflexivity.
    + destruct (client_accepts_false E k Hacc) as [e Href].
      rewrite (call_refused E u k e _ Href). cbn [snd]. apply IH.
Qed.

Lemma run_calls_log_all_accepted (calls : list (string * string)) log out :
  forallb (fun c => client_accepts E (snd c)) calls = true ->
  run_calls E calls (mkWorld PHARMACOPEIA_CONTEXT log out)
  = mkWorld PHARMACOPEIA_CONTEXT
      (log ++ map (fun c => submission E (fst c) (snd c)) calls) out.
Proof.
  intros Hall. rewrite run_calls_log. do 3 f_equal.
  induction calls as [| c rest IH]; [reflexivity |].
  cbn [forallb] in Hall. apply andb_true_iff in Hall as [Hc Hrest].
  cbn [filter]. rewrite Hc, (IH Hrest). reflexivity.
Qed.

End Frame.

(** ** The loop of the script *)

Section Script.

Variable E : Env.

(** One turn of the loop, started while the global holds the loaded
    text: one submission, the patient line, and the five lines of the
    prescription when the call returned a record. *)
Lemma scenario_run (key symptom : string) log out :
  client_accepts E key = true ->
  scenario E key symptom (mkWorld PHARMACOPEIA_CONTEXT log out)
  = (Returned tt,
     mkWorld PHARMACOPEIA_CONTEXT (log ++ [submission E symptom key])
       (out ++
        (newline ++ patient_mark ++ " PATIENT: '" ++ symptom ++ "'")
        :: match value_of_reply E (llm_service E log (submission E symptom key)) with
           | PyMusicPrescription r =>
               [ rx_mark ++ " RX: " ++ mode_name r ++ " (" ++ archetype r ++ ")";
                 why_mark ++ " WHY: " ++ neuroscience_mechanism r;
                 search_mark ++ " SEARCH: '" ++ search_query r ++ "'";
                 do_mark ++ " DO THIS: " ++ activity_suggestion r;
                 repeat_string "-" 50 ]
           | _ => []
           end)).
Proof.
  intros Hacc.
  unfold scenario, bind at 1, print at 1.
  cbn [g_PHARMACOPEIA_CONTEXT service_log stdout].
  unfold bind at 1. rewrite (call_run E symptom key log _ Hacc).
  destruct (value_of_reply E (llm_service E log (submission E symptom key)));
    try reflexivity.
  unfold bind, print. cbn [g_PHARMACOPEIA_CONTEXT service_log stdout].
  rewrite <- !app_assoc. reflexivity.
Qed.

(** One turn of the loop when the client class refuses the key: the
    patient line is printed and the exception goes on upwards. *)
Lemma scenario_refused (key symptom : string) (e : Exception) (w : World) :
  client_refusal E (7 # 10) "gpt-4-turbo" key = Some e ->
  scenario E key symptom w
  = (Raised e,
     mkWorld (g_PHARMACOPEIA_CONTEXT w) (service_log w)
       (stdout w ++ [newline ++ patient_mark ++ " PATIENT: '" ++ symptom ++ "'"])).
Proof.
  intros Href.
  unfold scenario, bind at 1, print at 1.
  unfold bind at 1. rewrite (call_refused E symptom key e _ Href). reflexivity.
Qed.

(** The loop over any list of symptoms: it ends normally and has made
    one submission per symptom, in order. *)
Lemma for_each_scenario_log (key : string) (items : list string) log out :
  client_accepts E key = true ->
  exists out',
    for_each (scenario E key) items (mkWorld PHARMACOPEIA_CONTEXT log out)
    = (Returned tt,
       mkWorld PHARMACOPEIA_CONTEXT
         (log ++ map (fun symptom => submission E symptom key) items) out').
Proof.
  intros Hacc. revert log out.
  induction items as [| x rest IH]; intros log out; cbn [for_each map].
  - exists out. now rewrite app_nil_r.
  - unfold bind. rewrite (scenario_run key x log out Hacc).
    match goal with
    | |- context [mkWorld _ (log ++ [?i]) ?o] =>
        destruct (IH (log ++ [i])%list o) as [out' Hrest]
    end.
    exists out'. rewrite Hrest, <- app_assoc. reflexivity.
Qed.

(** The loop when no call returns a record: only the patient lines are
    printed. *)
Lemma for_each_scenario_all_fail (key : string) (items : list string) log out :
  client_accepts E key = true ->
  (forall l inv,
     isinstance_MusicPrescription (value_of_reply E (llm_service E l inv)) = false) ->
  for_each (scenario E key) items (mkWorld PHARMACOPEIA_CONTEXT log out)
  = (Returned tt,
     mkWorld PHARMACOPEIA_CONTEXT
       (log ++ map (fun symptom => submission E symptom key) items)
       (out ++ map (fun symptom =>
                      newline ++ patient_mark ++ " PATIENT: '" ++ symptom ++ "'")
                 items)).
Proof.
  intros Hacc Hfail. revert log out.
  induction items as [| x rest IH]; intros log out; cbn [for_each map].
  - now rewrite !app_nil_r.
  - unfold bind. rewrite (scenario_run key x log out Hacc).
    specialize (Hfail log (submission E x key)).
    destruct (value_of_reply E (llm_service E log (submission E x key)));
      try discriminate Hfail;
      rewrite IH, <- !app_assoc; reflexivity.
Qed.

End Script.
(** ** The contract of [get_persian_music_prescription] *)

(** C1, as stated, fails: a service that answers with a well-formed
    object whose six fields are all the empty text gets that object back
    as a successful [MusicPrescription]; the model declares plain [str]
    fields, and the empty text is a [str]. *)
Lemma C1_blank_record_returned :
  fst (get_persian_music_prescription blank_env coding_symptom sample_key
         module_init)
  = Returned (PyMusicPrescription blank_rx)
  /\ all_fields_nonempty blank_rx = false
  /\ diagnosis blank_rx = EmptyString.
Proof.
  unfold module_init. rewrite call_run by reflexivity. vm_compute. repeat split.
Qed.

(** C1, amended: whenever a call returns a [MusicPrescription], the
    service answered with a text that decodes to an object in which each
    of the six declared fields is present and validates as text, and the
    record holds exactly those six texts (any of which may be empty); a
    record with a field left out is never returned. *)
Theorem C1_success_record_complete (E : Env) (user_input key : string)
    log out (r : MusicPrescription) :
  fst (get_persian_music_prescription E user_input key
         (mkWorld PHARMACOPEIA_CONTEXT log out))
  = Returned (PyMusicPrescription r) ->
  exists text members,
    llm_service E log (submission E user_input key) = inr text
    /\ parse_json_markdown E text = inr (JObject members)
    /\ forall name, In name required_names ->
         exists s, required_str E members name = Some s
                   /\ get_field r name = Some s.
Proof.
  destruct (client_accepts E key) eqn:Hacc.
  2: { destruct (client_accepts_false E key Hacc) as [e Href].
       rewrite (call_refused E user_input key e _ Href). discriminate. }
  rewrite (call_run E user_input key log out Hacc). cbn [fst].
  unfold value_of_reply, parser_parse, error_value.
  destruct (llm_service E log (submission E user_input key)) as [e | text];
    [discriminate |].
  destruct (parse_json_markdown E text) as [e | obj] eqn:Hdec; [discriminate |].
  destruct (MusicPrescription_validate E obj) as [r' |] eqn:Hval; [| discriminate].
  intros [= ->].
  destruct (validate_object E obj r Hval) as [members ->].
  exists text, members. split; [reflexivity | split; [exact Hdec |]].
  intros name Hin. exact (validate_fields E members r name Hval Hin).
Qed.

Lemma C1_success_record_complete_witness :
  fst (get_persian_music_prescription focus_env coding_symptom sample_key
         module_init)
  = Returned (PyMusicPrescription focus_rx)
  /\ exists text members,
       llm_service focus_env [] (submission focus_env coding_symptom sample_key)
       = inr text
       /\ parse_json_markdown focus_env text = inr (JObject members)
       /\ forall name, In name required_names ->
            exists s, required_str focus_env members name = Some s
                      /\ get_field focus_rx name = Some s.
Proof.
  assert (H : fst (get_persian_music_prescription focus_env coding_symptom
                     sample_key (mkWorld PHARMACOPEIA_CONTEXT [] []))
              = Returned (PyMusicPrescription focus_rx)).
  { rewrite call_run by reflexivity. vm_compute. reflexivity. }
  split.
  - exact H.
  - exact (C1_success_record_complete focus_env coding_symptom sample_key
             [] [] focus_rx H).
Defined.

(** C2, as stated, fails: the client object is built before the [try]
    is entered, so when the client class refuses the key (here: a class
    that refuses to be built without one, called with the empty key) its
    exception is not turned into an error text: it reaches the caller. *)
Lemma C2_refused_key_escapes :
  get_persian_music_prescription strict_focus_env coding_symptom EmptyString
    module_init
  = (Raised (ValueError missing_key_message), module_init).
Proof. reflexivity. Qed.

(** C2, amended: once the client object is built, whatever the user
    input and whatever the service does, the call returns a value and
    does not raise.  If the service raises, the value is the text
    "Error: " followed by the text of that exception; if the reply cannot
    be decoded or does not validate, it is "Error: " followed by the text
    of the parser's exception; a record is returned only when the whole
    reply validates.  When the client class refuses the key, that
    exception reaches the caller and nothing has been submitted. *)
Theorem C2_failures_returned_as_error_text (E : Env) (user_input key : string)
    log out :
  match client_refusal E (7 # 10) "gpt-4-turbo" key with
  | Some e =>
      get_persian_music_prescription E user_input key
        (mkWorld PHARMACOPEIA_CONTEXT log out)
      = (Raised e, mkWorld PHARMACOPEIA_CONTEXT log out)
  | None =>
      exists v w',
        get_persian_music_prescription E user_input key
          (mkWorld PHARMACOPEIA_CONTEXT log out) = (Returned v, w')
        /\ match llm_service E log (submission E user_input key) with
           | inl e => v = PyStr ("Error: " ++ exc_str e)
           | inr text =>
               match parse_json_markdown E text with
               | inl e => v = PyStr ("Error: " ++ exc_str e)
               | inr obj =>
                   match MusicPrescription_validate E obj with
                   | None =>
                       v = PyStr ("Error: " ++ exc_str (validation_error E obj))
                   | Some r => v = PyMusicPrescription r
                   end
               end
           end
  end.
Proof.
  destruct (client_refusal E (7 # 10) "gpt-4-turbo" key) as [e |] eqn:Href.
  { now apply call_refused. }
  assert (Hacc : client_accepts E key = true)
    by (unfold client_accepts; now rewrite Href).
  eexists. eexists. split; [apply (call_run E user_input key log out Hacc) |].
  unfold value_of_reply, parser_parse, error_value, error_prefix.
  destruct (llm_service E log (submission E user_input key)) as [e | text];
    [reflexivity |].
  destruct (parse_json_markdown E text) as [e | obj]; [reflexivity |].
  destruct (MusicPrescription_validate E obj); reflexivity.
Qed.

(** C3: when the service answers with a text that is not JSON (plain
    prose), or that decodes to something other than an object, or to an
    object that lacks one of the six fields or holds one of them in a
    shape that is not text (a nested object, say), the parser refuses it
    and the call returns the error text built from the parser's
    exception; no record is made up and nothing is raised. *)
Theorem C3_malformed_reply_rejected (E : Env) (user_input key : string)
    log out (text : string) (e : Exception) :
  client_accepts E key = true ->
  llm_service E log (submission E user_input key) = inr text ->
  malformed_reply E text e ->
  fst (get_persian_music_prescription E user_input key
         (mkWorld PHARMACOPEIA_CONTEXT log out))
  = Returned (PyStr ("Error: " ++ exc_str e))
  /\ parser_parse E (mkParser MusicPrescription_fields) text = inl e.
Proof.
  intros Hacc Hsvc Hbad.
  rewrite (call_run E user_input key log out Hacc), Hsvc.
  cbn [fst value_of_reply].
  assert (Hp : parser_parse E (mkParser MusicPrescription_fields) text = inl e).
  { unfold parser_parse.
    destruct Hbad as [e Hdec | j Hdec Hobj | members name Hdec Hin Hlk
                      | members name v Hdec Hin Hlk Hshape]; rewrite Hdec.
    - reflexivity.
    - destruct j; try discriminate Hobj; reflexivity.
    - rewrite (validate_requires E members name Hin); [reflexivity |].
      unfold required_str. now rewrite Hlk.
    - rewrite (validate_requires E members name Hin); [reflexivity |].
      unfold required_str. rewrite Hlk. now apply validate_str_wrong_shape. }
  rewrite Hp. split; reflexivity.
Qed.

Lemma C3_malformed_reply_rejected_witness :
  fst (get_persian_music_prescription nested_env coding_symptom sample_key
         module_init)
  = Returned (PyStr ("Error: "
                     ++ exc_str (sample_validation_error reply_nested_field)))
  /\ parser_parse nested_env (mkParser MusicPrescription_fields)
       (json_text reply_nested_field)
     = inl (sample_validation_error reply_nested_field).
Proof.
  apply (C3_malformed_reply_rejected nested_env coding_symptom sample_key [] []
           (json_text reply_nested_field)).
  - reflexivity.
  - reflexivity.
  - apply (misshapen_field nested_env _
             [ ("diagnosis", JString "Restless before sleep.");
               ("mode_name", JObject [("primary", JString "Avaz-e Abu Ata")]);
               ("archetype", JString "The Philosopher");
               ("neuroscience_mechanism", JString "Induces Delta waves.");
               ("search_query", JString "Abu Ata setar");
               ("activity_suggestion", JString "Dim the lights.") ]
             "mode_name" (JObject [("primary", JString "Avaz-e Abu Ata")])).
    + vm_compute. reflexivity.
    + cbn. tauto.
    + reflexivity.
    + reflexivity.
Defined.

(** The other two kinds of malformed reply, run on the sample libraries:
    prose that is not JSON, and an object without [search_query]. *)
Example prose_reply_surfaces_as_error :
  fst (get_persian_music_prescription prose_env coding_symptom sample_key
         module_init)
  = Returned (PyStr ("Error: Invalid json output: " ++ prose_reply)).
Proof.
  unfold module_init. rewrite call_run by reflexivity. vm_compute. reflexivity.
Qed.

Example missing_field_surfaces_as_error :
  fst (get_persian_music_prescription missing_env coding_symptom sample_key
         module_init)
  = Returned (PyStr ("Error: "
                     ++ exc_str (sample_validation_error reply_missing_field))).
Proof.
  unfold module_init. rewrite call_run by reflexivity. vm_compute. reflexivity.
Qed.

(** A service that cannot be reached. *)
Example unreachable_service_surfaces_as_error :
  get_persian_music_prescription unreachable_env coding_symptom sample_key
    module_init
  = (Returned (PyStr "Error: Connection error."),
     mkWorld PHARMACOPEIA_CONTEXT
       [submission unreachable_env coding_symptom sample_key] []).
Proof. unfold module_init. rewrite call_run by reflexivity. reflexivity. Qed.




(** With an absent variable the script behaves the same way. *)
Example main_without_variable :
  service_log (snd (main focus_env None module_init)) = []
  /\ stdout (snd (main focus_env None module_init))
     = ["Please set your OPENAI_API_KEY environment variable."].
Proof. split; reflexivity. Qed.

(** C5: for every user input, the one request a call submits holds
    exactly two messages: a system message whose content is the knowledge
    base, character for character, and a human message made of the fixed
    lead-in, the user input exactly as given, the fixed instruction line
    and the format instructions generated from the six declared fields of
    [MusicPrescription].  (A call submits once its client object is
    built.) *)
Theorem C5_request_contents (E : Env) (user_input key : string) log out :
  client_accepts E key = true ->
  service_log
    (snd (get_persian_music_prescription E user_input key
            (mkWorld PHARMACOPEIA_CONTEXT log out)))
  = (log ++
     [ mkInvocation (7 # 10) "gpt-4-turbo" key Invoke
         [ mkMessage SystemRole PHARMACOPEIA_CONTEXT;
           mkMessage HumanRole
             ("PATIENT SYMPTOMS: " ++ user_input ++ human_middle
                ++ format_instructions_for E MusicPrescription_fields) ] ])%list
  /\ map field_name MusicPrescription_fields
     = [ "diagnosis"; "mode_name"; "archetype"; "neuroscience_mechanism";
         "search_query"; "activity_suggestion" ].
Proof.
  intros Hacc. rewrite (call_run E user_input key log out Hacc).
  split; reflexivity.
Qed.

Lemma C5_request_contents_witness :
  service_log
    (snd (get_persian_music_prescription focus_env coding_symptom sample_key
            (mkWorld PHARMACOPEIA_CONTEXT [] [])))
  = [ mkInvocation (7 # 10) "gpt-4-turbo" sample_key Invoke
        [ mkMessage SystemRole PHARMACOPEIA_CONTEXT;
          mkMessage HumanRole
            ("PATIENT SYMPTOMS: " ++ coding_symptom ++ human_middle
               ++ sample_format_instructions MusicPrescription_fields) ] ].
Proof.
  exact (proj1 (C5_request_contents focus_env coding_symptom sample_key [] []
                  eq_refl)).
Defined.

(** ** The remaining properties of a call *)

(** C6: every call submits with the same configuration, whatever the
    user input: temperature 0.7 (which is not zero), model gpt-4-turbo,
    and a single [invoke] of the chain rather than a stream.  The same
    holds of every submission made by any sequence of calls. *)
Theorem C6_fixed_configuration (E : Env) (user_input key : string) log out
    (calls : list (string * string)) :
  client_accepts E key = true ->
  (exists inv,
     service_log
       (snd (get_persian_music_prescription E user_input key
               (mkWorld PHARMACOPEIA_CONTEXT log out)))
     = (log ++ [inv])%list
     /\ inv_temperature inv = 7 # 10
     /\ ~ (inv_temperature inv == 0)%Q
     /\ inv_model inv = "gpt-4-turbo"
     /\ inv_mode inv = Invoke)
  /\ Forall configured_as_written (service_log (run_calls E calls module_init)).
Proof.
  intros Hacc. split.
  - exists (submission E user_input key).
    rewrite (call_run E user_input key log out Hacc).
    repeat split. cbn. intros H. discriminate H.
  - unfold module_init. rewrite run_calls_log. cbn [service_log app].
    apply Forall_forall. intros inv Hin. apply in_map_iff in Hin as (c & <- & _).
    repeat split.
Qed.

Lemma C6_fixed_configuration_witness :
  (exists inv,
     service_log
       (snd (get_persian_music_prescription unreachable_env coding_symptom
               sample_key (mkWorld PHARMACOPEIA_CONTEXT [] [])))
     = [inv]
     /\ inv_temperature inv = 7 # 10
     /\ ~ (inv_temperature inv == 0)%Q
     /\ inv_model inv = "gpt-4-turbo"
     /\ inv_mode inv = Invoke)
  /\ Forall configured_as_written
       (service_log
          (run_calls unreachable_env
             [(coding_symptom, sample_key); (EmptyString, sample_key)]
             module_init)).
Proof.
  exact (C6_fixed_configuration unreachable_env coding_symptom sample_key [] []
           [(coding_symptom, sample_key); (EmptyString, sample_key)] eq_refl).
Defined.

(** C7: a call submits to the service exactly once, also when the
    service raises or the reply is refused, and never a second time.  It
    keeps nothing from earlier calls: started from two different
    histories it submits the same request, changes nothing but the log,
    and returns the same function of what the service answers.  A
    sequence of calls makes one submission for each call whose client
    object was built, and none for the others. *)
Theorem C7_one_submission_per_call (E : Env) (user_input key : string)
    log1 out1 log2 out2 (calls : list (string * string)) :
  client_accepts E key = true ->
  let call := get_persian_music_prescription E user_input key in
  let w1 := mkWorld PHARMACOPEIA_CONTEXT log1 out1 in
  let w2 := mkWorld PHARMACOPEIA_CONTEXT log2 out2 in
  snd (call w1)
  = mkWorld PHARMACOPEIA_CONTEXT (log1 ++ [submission E user_input key]) out1
  /\ snd (call w2)
     = mkWorld PHARMACOPEIA_CONTEXT (log2 ++ [submission E user_input key]) out2
  /\ fst (call w1)
     = Returned (value_of_reply E (llm_service E log1 (submission E user_input key)))
  /\ fst (call w2)
     = Returned (value_of_reply E (llm_service E log2 (submission E user_input key)))
  /\ length (service_log (run_calls E calls module_init))
     = length (filter (fun c => client_accepts E (snd c)) calls)
  /\ (forallb (fun c => client_accepts E (snd c)) calls = true ->
      length (service_log (run_calls E calls module_init)) = length calls).
Proof.
  intros Hacc. cbv zeta. rewrite !(call_run E user_input key _ _ Hacc).
  repeat split.
  - unfold module_init. rewrite run_calls_log. cbn [service_log app].
    apply length_map.
  - intros Hall. unfold module_init.
    rewrite (run_calls_log_all_accepted E calls [] [] Hall).
    cbn [service_log app]. apply length_map.
Qed.

Lemma C7_one_submission_per_call_witness :
  snd (get_persian_music_prescription unreachable_env coding_symptom sample_key
         (mkWorld PHARMACOPEIA_CONTEXT [] []))
  = mkWorld PHARMACOPEIA_CONTEXT
      [submission unreachable_env coding_symptom sample_key] []
  /\ length (service_log
               (run_calls unreachable_env
                  [(coding_symptom, sample_key); (EmptyString, sample_key)]
                  module_init)) = 2%nat.
Proof.
  pose proof (C7_one_submission_per_call unreachable_env coding_symptom
                sample_key [] [] [] []
                [(coding_symptom, sample_key); (EmptyString, sample_key)]
                eq_refl) as H.
  cbv zeta in H. split.
  - exact (proj1 H).
  - exact (proj2 (proj2 (proj2 (proj2 (proj2 H)))) eq_refl).
Defined.

(** C8: the knowledge base is never changed.  A call leaves the module
    global as it found it, and so does the script; after any sequence of
    calls made since the module was loaded the global still holds the
    loaded text, and every request submitted on the way carried exactly
    that text as its system message. *)
Theorem C8_knowledge_base_fixed (E : Env) (user_input key : string)
    (env_key : option string) (w : World) (calls : list (string * string)) :
  g_PHARMACOPEIA_CONTEXT (snd (get_persian_music_prescription E user_input key w))
  = g_PHARMACOPEIA_CONTEXT w
  /\ g_PHARMACOPEIA_CONTEXT (snd (main E env_key w)) = g_PHARMACOPEIA_CONTEXT w
  /\ g_PHARMACOPEIA_CONTEXT (run_calls E calls module_init) = PHARMACOPEIA_CONTEXT
  /\ Forall framed_by_knowledge_base (service_log (run_calls E calls module_init)).
Proof.
  split; [apply keeps_global_call |].
  split; [apply keeps_global_main |].
  unfold module_init. rewrite run_calls_log. split; [reflexivity |].
  cbn [service_log app].
  apply Forall_forall. intros inv Hin. apply in_map_iff in Hin as (c & <- & _).
  reflexivity.
Qed.



(** C10: the user input is not checked.  For every text, the empty one
    included, the call builds the request and submits it, and what it
    returns is decided by the service's answer alone; for the empty text
    the human message is the lead-in directly followed by the
    instruction line and the format instructions.  (Whether the client
    object is built depends on the key, not on the user input.) *)
Theorem C10_no_input_precondition (E : Env) (user_input key : string) log out :
  client_accepts E key = true ->
  get_persian_music_prescription E user_input key
    (mkWorld PHARMACOPEIA_CONTEXT log out)
  = (Returned (value_of_reply E (llm_service E log (submission E user_input key))),
     mkWorld PHARMACOPEIA_CONTEXT (log ++ [submission E user_input key]) out)
  /\ get_persian_music_prescription E EmptyString key
       (mkWorld PHARMACOPEIA_CONTEXT log out)
     = (Returned (value_of_reply E (llm_service E log (submission E EmptyString key))),
        mkWorld PHARMACOPEIA_CONTEXT (log ++ [submission E EmptyString key]) out)
  /\ inv_messages (submission E EmptyString key)
     = [ mkMessage SystemRole PHARMACOPEIA_CONTEXT;
         mkMessage HumanRole
           ("PATIENT SYMPTOMS: " ++ human_middle
              ++ format_instructions_for E MusicPrescription_fields) ].
Proof.
  intros Hacc. rewrite !(call_run E _ key log out Hacc). repeat split.
Qed.

Lemma C10_no_input_precondition_witness :
  get_persian_music_prescription focus_env EmptyString sample_key
    (mkWorld PHARMACOPEIA_CONTEXT [] [])
  = (Returned (value_of_reply focus_env
                 (llm_service focus_env []
                    (submission focus_env EmptyString sample_key))),
     mkWorld PHARMACOPEIA_CONTEXT [submission focus_env EmptyString sample_key] []).
Proof.
  exact (proj1 (proj2 (C10_no_input_precondition focus_env coding_symptom
                         sample_key [] [] eq_refl))).
Defined.

(** With the empty text as input and a service that answers well, the
    record comes back as for any other input. *)
Example empty_input_takes_the_ordinary_path :
  get_persian_music_prescription focus_env EmptyString sample_key module_init
  = (Returned (PyMusicPrescription focus_rx),
     mkWorld PHARMACOPEIA_CONTEXT [submission focus_env EmptyString sample_key] []).
Proof.
  unfold module_init. rewrite call_run by reflexivity. vm_compute. reflexivity.
Qed.

(** Whether the client object is built does not depend on the user
    input: a refused key is refused for every input, the empty one
    included. *)
Example refused_key_whatever_the_input (user_input : string) :
  get_persian_music_prescription strict_focus_env user_input EmptyString
    module_init
  = (Raised (ValueError missing_key_message), module_init).
Proof. reflexivity. Qed.

(** ** A well-formed reply *)

(** When the service answers with a text that decodes to an object
    holding the six declared fields as JSON strings, in whatever order
    and beside whatever other members, the call returns the record made
    of exactly those six texts. *)
Theorem well_formed_reply_accepted (E : Env) (user_input key : string) log out
    (text : string) (members : list (string * JSON)) (d m a n s c : string) :
  client_accepts E key = true ->
  llm_service E log (submission E user_input key) = inr text ->
  parse_json_markdown E text = inr (JObject members) ->
  lookup "diagnosis" members = Some (JString d) ->
  lookup "mode_name" members = Some (JString m) ->
  lookup "archetype" members = Some (JString a) ->
  lookup "neuroscience_mechanism" members = Some (JString n) ->
  lookup "search_query" members = Some (JString s) ->
  lookup "activity_suggestion" members = Some (JString c) ->
  fst (get_persian_music_prescription E user_input key
         (mkWorld PHARMACOPEIA_CONTEXT log out))
  = Returned (PyMusicPrescription (mkMusicPrescription d m a n s c)).
Proof.
  intros Hacc Hsvc Hdec Hd Hm Ha Hn Hs Hc.
  rewrite (call_run E user_input key log out Hacc), Hsvc.
  cbn [fst value_of_reply].
  unfold parser_parse. rewrite Hdec.
  unfold MusicPrescription_validate, required_str.
  rewrite Hd, Hm, Ha, Hn, Hs, Hc. reflexivity.
Qed.

Lemma well_formed_reply_accepted_witness :
  fst (get_persian_music_prescription focus_env coding_symptom sample_key
         module_init)
  = Returned (PyMusicPrescription focus_rx).
Proof.
  apply (well_formed_reply_accepted focus_env coding_symptom sample_key [] []
           (json_text (JObject (members_of focus_rx))) (members_of focus_rx));
    reflexivity.
Defined.

(** ** The script with a credential *)

(** With a non-empty credential that the client class accepts, the
    script ends normally whatever the service does: it has made exactly
    one submission per scenario, in the order of [user_scenarios], each
    carrying the credential read from the environment, and the module
    global is as before.  A failed scenario does not stop the loop. *)
Theorem main_submits_each_scenario_once (E : Env) (key : string) log out :
  truthy (Some key) = true ->
  client_accepts E key = true ->
  fst (main E (Some key) (mkWorld PHARMACOPEIA_CONTEXT log out)) = Returned tt
  /\ service_log (snd (main E (Some key) (mkWorld PHARMACOPEIA_CONTEXT log out)))
     = (log ++ map (fun symptom => submission E symptom key) user_scenarios)%list
  /\ g_PHARMACOPEIA_CONTEXT
       (snd (main E (Some key) (mkWorld PHARMACOPEIA_CONTEXT log out)))
     = PHARMACOPEIA_CONTEXT.
Proof.
  intros Hkey Hacc.
  assert (Hmain : exists out',
             main E (Some key) (mkWorld PHARMACOPEIA_CONTEXT log out)
             = (Returned tt,
                mkWorld PHARMACOPEIA_CONTEXT
                  (log ++ map (fun symptom => submission E symptom key)
                            user_scenarios) out')).
  { unfold main. rewrite Hkey. cbn [negb].
    unfold bind at 1, print at 1.
    cbn [g_PHARMACOPEIA_CONTEXT service_log stdout].
    now apply for_each_scenario_log. }
  destruct Hmain as [out' ->]. repeat split.
Qed.

Lemma main_submits_each_scenario_once_witness :
  truthy (Some sample_key) = true
  /\ service_log (snd (main unreachable_env (Some sample_key) module_init))
     = map (fun symptom => submission unreachable_env symptom sample_key)
         user_scenarios.
Proof.
  split.
  - reflexivity.
  - exact (proj1 (proj2 (main_submits_each_scenario_once unreachable_env
                           sample_key [] [] eq_refl eq_refl))).
Defined.

(** When no call returns a record (the service raises, or every reply is
    refused), the script prints the banner and one patient line per
    scenario and nothing else: the error text a call returns is dropped,
    not shown. *)
Theorem main_drops_error_text (E : Env) (key : string) log out :
  truthy (Some key) = true ->
  client_accepts E key = true ->
  (forall l inv,
     isinstance_MusicPrescription (value_of_reply E (llm_service E l inv)) = false) ->
  stdout (snd (main E (Some key) (mkWorld PHARMACOPEIA_CONTEXT log out)))
  = (out ++ "--- DR. RADIF IS LISTENING ---"
       :: map (fun symptom =>
                 (newline ++ patient_mark ++ " PATIENT: '" ++ symptom ++ "'")%string)
            user_scenarios)%list.
Proof.
  intros Hkey Hacc Hfail. unfold main. rewrite Hkey. cbn [negb].
  unfold bind, print at 1. cbn [g_PHARMACOPEIA_CONTEXT service_log stdout].
  rewrite (for_each_scenario_all_fail E key user_scenarios log _ Hacc Hfail).
  cbn [snd stdout]. rewrite <- app_assoc. reflexivity.
Qed.

Lemma main_drops_error_text_witness :
  length (stdout (snd (main unreachable_env (Some sample_key) module_init))) = 5%nat
  /\ stdout (snd (main unreachable_env (Some sample_key) module_init))
     = "--- DR. RADIF IS LISTENING ---"
       :: map (fun symptom =>
                 newline ++ patient_mark ++ " PATIENT: '" ++ symptom ++ "'")
            user_scenarios.
Proof.
  assert (H := main_drops_error_text unreachable_env sample_key [] [] eq_refl
                 eq_refl (fun _ _ => eq_refl)).
  split.
  - unfold module_init. rewrite H. reflexivity.
  - exact H.
Defined.

(** When a call returns a record, the turn of the loop prints the patient
    line and then five lines: mode and archetype, mechanism, search
    string, activity, and a rule of fifty dashes.  The diagnosis is not
    printed. *)
Theorem scenario_prints_prescription (E : Env) (key symptom : string) log out
    (text : string) (r : MusicPrescription) :
  client_accepts E key = true ->
  llm_service E log (submission E symptom key) = inr text ->
  parser_parse E (mkParser MusicPrescription_fields) text = inr r ->
  stdout (snd (scenario E key symptom (mkWorld PHARMACOPEIA_CONTEXT log out)))
  = (out ++
     [ (newline ++ patient_mark ++ " PATIENT: '" ++ symptom ++ "'")%string;
       (rx_mark ++ " RX: " ++ mode_name r ++ " (" ++ archetype r ++ ")")%string;
       (why_mark ++ " WHY: " ++ neuroscience_mechanism r)%string;
       (search_mark ++ " SEARCH: '" ++ search_query r ++ "'")%string;
       (do_mark ++ " DO THIS: " ++ activity_suggestion r)%string;
       "--------------------------------------------------" ])%list.
Proof.
  intros Hacc Hsvc Hparse.
  rewrite (scenario_run E key symptom log out Hacc), Hsvc.
  cbn [value_of_reply]. rewrite Hparse. reflexivity.
Qed.

Lemma scenario_prints_prescription_witness :
  stdout (snd (scenario focus_env sample_key coding_symptom module_init))
  = [ newline ++ patient_mark ++ " PATIENT: '" ++ coding_symptom ++ "'";
      rx_mark ++ " RX: Dastgah-e Nava (The Mathematician)";
      why_mark ++ " WHY: " ++ neuroscience_mechanism focus_rx;
      search_mark ++ " SEARCH: 'Dastgah Nava santur instrumental'";
      do_mark ++ " DO THIS: " ++ activity_suggestion focus_rx;
      "--------------------------------------------------" ].
Proof.
  apply (scenario_prints_prescription focus_env sample_key coding_symptom [] []
           (json_text (JObject (members_of focus_rx))) focus_rx).
  - reflexivity.
  - reflexivity.
  - vm_compute. reflexivity.
Defined.

(** When the environment holds a credential that the client class
    refuses, the script does not end normally: after the banner and the
    first patient line the exception of the client class goes up through
    the loop, and nothing has been submitted. *)
Theorem main_stops_at_refused_key (E : Env) (key : string) (e : Exception)
    (w : World) :
  truthy (Some key) = true ->
  client_refusal E (7 # 10) "gpt-4-turbo" key = Some e ->
  main E (Some key) w
  = (Raised e,
     mkWorld (g_PHARMACOPEIA_CONTEXT w) (service_log w)
       (stdout w ++
        [ "--- DR. RADIF IS LISTENING ---";
          (newline ++ patient_mark
             ++ " PATIENT: 'I have to write 500 lines of Python code and I'm distracted.'")%string ])).
Proof.
  intros Hkey Href. unfold main. rewrite Hkey. cbn [negb].
  unfold bind at 1, print at 1.
  unfold user_scenarios. cbn [for_each]. unfold bind at 1.
  rewrite (scenario_refused E key _ e _ Href).
  cbn [g_PHARMACOPEIA_CONTEXT service_log stdout].
  rewrite <- app_assoc. reflexivity.
Qed.

Lemma main_stops_at_refused_key_witness :
  main broken_env (Some sample_key) module_init
  = (Raised no_client,
     mkWorld PHARMACOPEIA_CONTEXT []
       [ "--- DR. RADIF IS LISTENING ---";
         newline ++ patient_mark
           ++ " PATIENT: 'I have to write 500 lines of Python code and I'm distracted.'" ]).
Proof.
  exact (main_stops_at_refused_key broken_env sample_key no_client module_init
           eq_refl eq_refl).
Defined.
